(** * NextGen 5Ws API: the routing layer and the application set-up

    A shallow embedding of [app/api_router/nextgen_router.py] and [main.py].
    Handlers are computations in a state-and-exception monad over the state
    of the external collaborators (the logger's sink, the LLM provider);
    Python's [try]/[except] is a combinator that takes the clauses in source
    order. *)

From stdpp Require Import base strings list gmap.
From Stdlib Require Import Ascii ZArith SpecFloat.

Local Open Scope Z_scope.
Local Open Scope string_scope.
Local Set Warnings "-register-all".

(** ** Python values that cross the handlers *)
Module Py.

(** Python objects as they reach [json.dumps]: [None], [bool], [int],
    [float] (an IEEE 754 double, NaN and the infinities among them), [str],
    [list], [dict] with string keys in insertion order, and an object of any
    other type, for which [json.dumps] has no encoding. *)
Inductive pyobj : Type :=
| JNull
| JBool (b : bool)
| JNum (n : Z)
| JFloat (f : spec_float)
| JStr (s : string)
| JArr (items : list pyobj)
| JObj (fields : list (string * pyobj))
| JOpaque (type_name : string).

(** [math.isfinite(f)] *)
Definition isfinite (f : spec_float) : bool :=
  match f with
  | S754_zero _ | S754_finite _ _ _ => true
  | S754_infinity _ | S754_nan => false
  end.

(** The first object, in the order of the encoder's walk, that
    [json.dumps(v, allow_nan=False)] cannot encode: a float out of range or
    an object of a type without an encoding. *)
Fixpoint unencodable (v : pyobj) : option pyobj :=
  match v with
  | JNull | JBool _ | JNum _ | JStr _ => None
  | JFloat f => if isfinite f then None else Some v
  | JOpaque _ => Some v
  | JArr items =>
      (fix walk (l : list pyobj) : option pyobj :=
         match l with
         | [] => None
         | item :: rest =>
             match unencodable item with
             | Some bad => Some bad
             | None => walk rest
             end
         end) items
  | JObj fields =>
      (fix walk (l : list (string * pyobj)) : option pyobj :=
         match l with
         | [] => None
         | (_, item) :: rest =>
             match unencodable item with
             | Some bad => Some bad
             | None => walk rest
             end
         end) fields
  end.

(** The exception classes the router names, [builtins.BaseException] and
    [builtins.Exception] at the root, any other class that derives from
    [Exception], and any class that derives from [BaseException] without
    [Exception] ([asyncio.CancelledError], [KeyboardInterrupt],
    [SystemExit]), both under their qualified names. *)
Inductive ExcClass : Type :=
| PyBaseException
| PyException
| ValidationError
| RequestValidationError
| NextGenException
| InvalidPayloadException
| NotFoundException
| NetworkException
| LLMProviderException
| TimeoutException
| OtherException (qualname : string)
| BaseOnly (qualname : string).

Definition class_eqb (c d : ExcClass) : bool :=
  match c, d with
  | PyBaseException, PyBaseException => true
  | PyException, PyException => true
  | ValidationError, ValidationError => true
  | RequestValidationError, RequestValidationError => true
  | NextGenException, NextGenException => true
  | InvalidPayloadException, InvalidPayloadException => true
  | NotFoundException, NotFoundException => true
  | NetworkException, NetworkException => true
  | LLMProviderException, LLMProviderException => true
  | TimeoutException, TimeoutException => true
  | OtherException n, OtherException m => String.eqb n m
  | BaseOnly n, BaseOnly m => String.eqb n m
  | _, _ => false
  end.

(** Modelled from the spec: [app/exceptions/custom_exceptions.py] is not
    among the sources.  Sections 4.1 and 7 give a closed taxonomy
    (InvalidPayload, NotFound, Network, LLMProvider, Timeout, Generic) in
    which the generic kind is the catch-all; the router imports it as
    [NextGenException] and lists it after the specific kinds, so the specific
    kinds derive from it.  The validation errors of pydantic and FastAPI are
    outside the taxonomy. *)
Definition base (c : ExcClass) : option ExcClass :=
  match c with
  | PyBaseException => None
  | PyException | BaseOnly _ => Some PyBaseException
  | InvalidPayloadException | NotFoundException | NetworkException
  | LLMProviderException | TimeoutException => Some NextGenException
  | ValidationError | RequestValidationError | NextGenException
  | OtherException _ => Some PyException
  end.

(** [type(e).__mro__], walked along [base]. *)
Fixpoint mro_from (depth : nat) (c : ExcClass) : list ExcClass :=
  match depth with
  | O => []
  | S d => c :: match base c with
                | Some b => mro_from d b
                | None => []
                end
  end.

Definition mro (c : ExcClass) : list ExcClass := mro_from 4 c.

Definition issubclass (c d : ExcClass) : bool := existsb (class_eqb d) (mro c).

(** An exception value: its dynamic class, [str(e)], and the [status_code]
    and [detail] attributes that the taxonomy's kinds carry. *)
Record exn : Type := Exn {
  exc_class : ExcClass;
  exc_str : string;
  exc_status_code : Z;
  exc_detail : string
}.

Definition isinstance (e : exn) (c : ExcClass) : bool := issubclass (exc_class e) c.

(** [isinstance(e, (C1, ..., Cn))] *)
Definition isinstance_any (e : exn) (cs : list ExcClass) : bool :=
  existsb (isinstance e) cs.

(** How a call ends: with a value or with a raised exception. *)
Inductive outcome (A : Type) : Type :=
| Return (a : A)
| Raise (e : exn).
Arguments Return {A} a.
Arguments Raise {A} e.

(** Computations over the state [W] of the world outside the request. *)
Definition M (W A : Type) : Type := W → outcome A * W.

Definition ret {W A} (a : A) : M W A := λ w, (Return a, w).

Definition raise {W A} (e : exn) : M W A := λ w, (Raise e, w).

Definition bind {W A B} (m : M W A) (k : A → M W B) : M W B :=
  λ w, match m w with
       | (Return a, w') => k a w'
       | (Raise e, w') => (Raise e, w')
       end.

(** One [except (C1, ..., Cn) as e: body] clause. *)
Definition clause (W A : Type) : Type := list ExcClass * (exn → M W A).

(** The first clause, in source order, whose classes [e] is an instance of. *)
Definition select_clause {W A} (e : exn) (clauses : list (clause W A))
  : option (clause W A) :=
  find (λ cl, isinstance_any e cl.1) clauses.

(** [try: body  except ...: ...].  A value passes through; a raised exception
    runs the selected clause, whose own outcome (a [raise] included) is the
    outcome of the statement; with no matching clause the exception
    propagates. *)
Definition try_except {W A} (body : M W A) (clauses : list (clause W A)) : M W A :=
  λ w, match body w with
       | (Return a, w') => (Return a, w')
       | (Raise e, w') =>
           match select_clause e clauses with
           | Some cl => cl.2 e w'
           | None => (Raise e, w')
           end
       end.

End Py.

Export Py.

Notation "'let*' x ':=' m 'in' k" := (bind m (λ x, k))
  (at level 10, x name, m at level 100, k at level 200, only parsing).
Notation "m ';;' k" := (bind m (λ _, k))
  (at level 100, k at level 200, right associativity, only parsing).

(** ** FastAPI and the application's own declarations *)
Module Web.

(** A [fastapi.responses.JSONResponse]: its status code and the content its
    body encodes. *)
Record JSONResponse : Type := mkJSONResponse {
  status_code : Z;
  content : pyobj
}.

(** The error [json.dumps] raises at an object it cannot encode: a
    [ValueError] at a float out of range, a [TypeError] at any other object;
    [dumps_str] is its [str()], whose wording is the interpreter's. *)
Definition dumps_error (dumps_str : pyobj → string) (bad : pyobj) : exn :=
  Exn (OtherException match bad with
                      | JFloat _ => "builtins.ValueError"
                      | _ => "builtins.TypeError"
                      end)
      (dumps_str bad) 0 "".

(** [JSONResponse(status_code=..., content=...)]: the constructor renders
    the body with [json.dumps(content, allow_nan=False, ...)] and raises what
    that raises. *)
Definition new_JSONResponse {W} (dumps_str : pyobj → string)
    (status : Z) (content : pyobj) : M W JSONResponse :=
  match unencodable content with
  | None => ret (mkJSONResponse status content)
  | Some bad => raise (dumps_error dumps_str bad)
  end.

(** What a path operation hands back to FastAPI: a response object, which is
    sent as it is, or a plain value, which FastAPI serialises into a
    [JSONResponse] with the route's status code. *)
Inductive handler_return : Type :=
| Response (r : JSONResponse)
| Value (v : pyobj).

(** The routes of the router are declared without [status_code=], for which
    FastAPI answers 200. *)
Definition route_default_status : Z := 200.

Definition send (r : handler_return) : JSONResponse :=
  match r with
  | Response resp => resp
  | Value v => mkJSONResponse route_default_status v
  end.

(** FastAPI around a path operation: what it returns is sent; what it raises
    is left to the exception handlers. *)
Definition respond {W} (operation : M W handler_return) : M W JSONResponse :=
  let* r := operation in
  ret (send r).

(** Modelled from the spec: [app/models/request.py] is not among the sources.
    Section 3: a task name (string) and a payload (opaque structured data). *)
Record TaskRequest : Type := mkTaskRequest {
  task_name : string;
  payload : pyobj
}.

(** Modelled from the spec: [app/config/error_codes.py] is not among the
    sources.  Section 4.3 gives 200 for every success response, 500 for the
    generic error and a 400-class status for InvalidPayload. *)
Module ErrorCode.
Definition SUCCESS : Z := 200.
Definition BAD_REQUEST : Z := 400.
Definition INTERNAL_SERVER_ERROR : Z := 500.
End ErrorCode.

(** The methods of [logging.Logger] that the code calls. *)
Inductive level : Type := INFO | WARNING | ERROR.

(** [logger.info(msg)], [logger.warning(msg)], [logger.error(msg)] of a
    logger whose calls return: the call gives [None]; what it does to the
    sink is the logger's. *)
Definition emit {W} (logger : level → string → W → W) (lvl : level) (msg : string)
  : M W unit :=
  λ w, (Return tt, logger lvl msg w).

End Web.

Export Web.

(** ** app/api_router/nextgen_router.py *)
Module Router.
Section Handlers.

(** The state of the collaborators outside the request (the logger's sink,
    whatever the provider call reaches) and the collaborators themselves,
    none of which is among the sources: a call of the logger acts on the
    state and returns [None] or raises; [process_task] returns the provider's
    result or raises; [fault_str] is [str()] of the taxonomy's exceptions and
    [dumps_str] that of the errors of [json.dumps]. *)
Context {W : Type}.
Variable logger : level → string → M W unit.
Variable process_task : TaskRequest → M W pyobj.
Variable fault_str : ExcClass → Z → string → string.
Variable dumps_str : pyobj → string.

Local Abbreviation log := logger.
Local Abbreviation JSONResponse_ := (new_JSONResponse dumps_str).

(** Modelled from the spec: the constructors of
    [app/exceptions/custom_exceptions.py], which is not among the sources.
    Section 4.3: the generic error answers 500, InvalidPayload a 400-class
    status; each carries the detail it is given. *)
Definition new_NextGenException (detail : string) : exn :=
  let status := ErrorCode.INTERNAL_SERVER_ERROR in
  Exn NextGenException (fault_str NextGenException status detail) status detail.

Definition new_InvalidPayloadException (detail : string) : exn :=
  let status := ErrorCode.BAD_REQUEST in
  Exn InvalidPayloadException (fault_str InvalidPayloadException status detail)
      status detail.

(** [@router.get("/")] *)
Definition index : M W handler_return :=
  log INFO "NextGen API is live!" ;;
  ret (Value (JObj [("message", JStr "NextGen API is live!")])).

(** [@router.get("/capabilities")] *)
Definition capabilities_body : M W handler_return :=
  let models := [JStr "03-mini-openai"; JStr "gpt-4"; JStr "llama-3"] in
  log INFO "Fetching capabilities" ;;
  let* r := JSONResponse_ ErrorCode.SUCCESS (JObj [("models", JArr models)]) in
  ret (Response r).

Definition capabilities_except (e : exn) : M W handler_return :=
  log ERROR ("Error in /capabilities: " +:+ exc_str e) ;;
  raise (new_NextGenException ("Error in /capabilities: " +:+ exc_str e)).

Definition get_capabilities : M W handler_return :=
  try_except capabilities_body [([PyException], capabilities_except)].

(** [@router.post("/heartbeat")] *)
Definition heartbeat_body : M W handler_return :=
  log INFO "Heartbeat check" ;;
  let* r := JSONResponse_ ErrorCode.SUCCESS
              (JObj [("info", JStr "heartbeat OK"); ("role", JStr "backend")]) in
  ret (Response r).

Definition heartbeat_except (e : exn) : M W handler_return :=
  log ERROR ("Error in /heartbeat: " +:+ exc_str e) ;;
  raise (new_NextGenException ("Error in /heartbeat: " +:+ exc_str e)).

Definition heartbeat : M W handler_return :=
  try_except heartbeat_body [([PyException], heartbeat_except)].

(** [@router.post("/generate")] *)
Definition generate_body (request : TaskRequest) : M W handler_return :=
  log INFO ("Received task: " +:+ task_name request) ;;
  let* response := process_task request in
  let* r := JSONResponse_ ErrorCode.SUCCESS response in
  ret (Response r).

Definition on_validation (ve : exn) : M W handler_return :=
  log WARNING ("Validation error: " +:+ exc_str ve) ;;
  raise (new_InvalidPayloadException (exc_str ve)).

Definition on_invalid_payload (ipe : exn) : M W handler_return :=
  log WARNING ("Invalid payload: " +:+ exc_detail ipe) ;;
  raise ipe.

Definition on_network (ne : exn) : M W handler_return :=
  log ERROR ("Network error: " +:+ exc_detail ne) ;;
  raise ne.

Definition on_llm_provider (le : exn) : M W handler_return :=
  log ERROR ("LLM provider error: " +:+ exc_detail le) ;;
  raise le.

Definition on_timeout (te : exn) : M W handler_return :=
  log ERROR ("Timeout error: " +:+ exc_detail te) ;;
  raise te.

Definition on_nextgen (ne : exn) : M W handler_return :=
  log ERROR ("NextGen error: " +:+ exc_detail ne) ;;
  raise ne.

Definition on_unhandled (e : exn) : M W handler_return :=
  log ERROR ("Unhandled error in /generate: " +:+ exc_str e) ;;
  raise (new_NextGenException ("Unhandled error in /generate: " +:+ exc_str e)).

(** The [except] clauses of [generate_5ws], in source order. *)
Definition generate_clauses : list (clause W handler_return) :=
  [ ([ValidationError; RequestValidationError], on_validation);
    ([InvalidPayloadException], on_invalid_payload);
    ([NetworkException], on_network);
    ([LLMProviderException], on_llm_provider);
    ([TimeoutException], on_timeout);
    ([NextGenException], on_nextgen);
    ([PyException], on_unhandled) ].

Definition generate_5ws (request : TaskRequest) : M W handler_return :=
  try_except (generate_body request) generate_clauses.

(** Every class that some clause of [generate_5ws] names, in source order. *)
Definition caught_kinds : list ExcClass := concat (generate_clauses.*1).

End Handlers.
End Router.

(** ** main.py *)
Module Main.

(** [os.getenv(key, default)] over [os.environ]. *)
Definition getenv (environ : gmap string string) (key dflt : string) : string :=
  default dflt (environ !! key).

(** [s.split(sep)] for a separator of one character: the pieces between the
    occurrences of [sep], empty pieces kept, so that the empty string gives
    one empty piece. *)
Fixpoint split (sep : ascii) (s : string) : list string :=
  match s with
  | EmptyString => [EmptyString]
  | String c rest =>
      if Ascii.eqb c sep then EmptyString :: split sep rest
      else match split sep rest with
           | piece :: pieces => String c piece :: pieces
           | [] => [String c EmptyString]
           end
  end.

Definition comma : ascii := ","%char.

(** [sep.join(pieces)] *)
Fixpoint join (sep : string) (pieces : list string) : string :=
  match pieces with
  | [] => EmptyString
  | [piece] => piece
  | piece :: rest => piece +:+ sep +:+ join sep rest
  end.

(** [c in s] for a character [c]. *)
Fixpoint contains (c : ascii) (s : string) : bool :=
  match s with
  | EmptyString => false
  | String c' rest => Ascii.eqb c' c || contains c rest
  end.

(** [s.count(c)] for a character [c]. *)
Fixpoint occurrences (c : ascii) (s : string) : nat :=
  match s with
  | EmptyString => O
  | String c' rest => (if Ascii.eqb c' c then 1 else 0)%nat + occurrences c rest
  end.

Definition ALLOWED_ORIGINS (environ : gmap string string) : list string :=
  split comma (getenv environ "ALLOWED_ORIGINS" "*").

(** The keyword arguments of [app.add_middleware(CORSMiddleware, ...)]. *)
Record CORSMiddleware : Type := mkCORS {
  allow_origins : list string;
  allow_credentials : bool;
  allow_methods : list string;
  allow_headers : list string
}.

(** What importing the module leaves behind: the application with its title
    and its CORS layer, built from the environment of that moment. *)
Record FastAPI : Type := mkApp {
  title : string;
  cors : CORSMiddleware
}.

Definition app (environ : gmap string string) : FastAPI :=
  mkApp "NextGen 5Ws API"
        (mkCORS (ALLOWED_ORIGINS environ) true ["*"] ["*"]).

Section FaultBoundary.

(** [Request] is Starlette's request object; [format_exc] is
    [traceback.format_exc()], which reads the interpreter's state. *)
Context {W Request : Type}.
Variable logger : level → string → W → W.
Variable format_exc : W → string.

Definition newline : string := String (Ascii.ascii_of_nat 10) EmptyString.

Definition traceback_format_exc : M W string :=
  λ w, (Return (format_exc w), w).

(** [@app.exception_handler(Exception)] *)
Definition global_exception_handler (request : Request) (exc : exn)
  : M W JSONResponse :=
  let* trace := traceback_format_exc in
  emit logger ERROR
    ("Unhandled error: " +:+ exc_str exc +:+ newline +:+ trace) ;;
  ret (mkJSONResponse 500 (JObj [("detail", JStr "Internal server error")])).

End FaultBoundary.
End Main.

(** ** Concrete collaborators

    A world in which the effects of a request can be read off: the records
    the logger has emitted and the requests that went out to the provider. *)
Module Sample.

Record world : Type := mkWorld {
  records : list (level * string);
  outbound : list TaskRequest
}.

Definition quiet : world := mkWorld [] [].

(** Modelled from the spec: [app/config/logger.py] is not among the sources.
    Section 7: every fault is logged with its message before it is surfaced;
    the logger appends the record to its sink. *)
Definition recording_logger (lvl : level) (msg : string) (w : world) : world :=
  mkWorld (records w ++ [(lvl, msg)]) (outbound w).

(** A provider call that goes out and comes back with [result]. *)
Definition answering (result : pyobj) (request : TaskRequest) : M world pyobj :=
  λ w, (Return result, mkWorld (records w) (outbound w ++ [request])).

(** A provider call that goes out and ends in the fault [e]. *)
Definition failing (e : exn) (request : TaskRequest) : M world pyobj :=
  λ w, (Raise e, mkWorld (records w) (outbound w ++ [request])).

(** A provider whose first call ends in the fault [e] and whose later calls
    come back with [result]. *)
Definition failing_once (e : exn) (result : pyobj) (request : TaskRequest)
  : M world pyobj :=
  λ w, (match outbound w with
        | [] => Raise e
        | _ :: _ => Return result
        end,
        mkWorld (records w) (outbound w ++ [request])).

(** [str()] of a taxonomy exception as its detail. *)
Definition detail_str (c : ExcClass) (status : Z) (detail : string) : string :=
  detail.

Definition summarize : TaskRequest :=
  mkTaskRequest "summarize" (JObj [("text", JStr "A long report.")]).

Definition summary : pyobj := JObj [("result", JStr "A report.")].

(** [str()] of the errors of [json.dumps], in CPython's wording. *)
Definition dumps_text (bad : pyobj) : string :=
  match bad with
  | JFloat _ => "Out of range float values are not JSON compliant"
  | _ => "Object is not JSON serializable"
  end.


(** The cancellation of the task that awaits the provider. *)
Definition cancelled : exn := Exn (BaseOnly "asyncio.CancelledError") "" 0 "".

Definition interrupted : exn := Exn (BaseOnly "builtins.KeyboardInterrupt") "" 0 "".

Definition disk_full : exn :=
  Exn (OtherException "builtins.OSError") "[Errno 28] No space left on device" 0 "".

(** A logger whose INFO calls raise and whose other calls record. *)
Definition broken_info_logger (lvl : level) (msg : string) : M world unit :=
  match lvl with
  | INFO => raise disk_full
  | WARNING | ERROR => emit recording_logger lvl msg
  end.

Definition unreachable : exn :=
  Exn NetworkException "provider unreachable" 503 "provider unreachable".

Definition missing_field : exn :=
  Exn ValidationError "1 validation error for TaskRequest" 0 "".

Definition invalid_payload : exn :=
  Exn InvalidPayloadException "1 validation error for TaskRequest" 400
      "1 validation error for TaskRequest".

Definition key_error : exn :=
  Exn (OtherException "builtins.KeyError") "'choices'" 0 "".

End Sample.

(** ** What the specification says of the handlers' effects *)

(** A computation that leaves the state outside the request as it found it. *)
Definition stateless {W A} (h : M W A) : Prop := ∀ w, (h w).2 = w.

(** A computation whose one effect is the provider call [call]. *)
Definition only_calls {W A B} (call : M W B) (h : M W A) : Prop :=
  ∀ w, (h w).2 = (call w).2.

(** ** Facts about the exception model *)
Section PyFacts.

Lemma class_eqb_refl c : class_eqb c c = true.
Proof. destruct c; simpl; auto using String.eqb_refl. Qed.

Lemma issubclass_refl c : issubclass c c = true.
Proof. unfold issubclass, mro. simpl. by rewrite class_eqb_refl. Qed.

(** Every exception value is an instance of [BaseException]. *)
Lemma isinstance_BaseException e : isinstance e PyBaseException = true.
Proof. unfold isinstance. by destruct (exc_class e). Qed.

(** The kinds of the taxonomy are instances of [Exception]. *)
Lemma taxonomy_is_Exception e :
  isinstance e NextGenException = true → isinstance e PyException = true.
Proof. unfold isinstance. by destruct (exc_class e). Qed.

(** The kinds of the taxonomy are instances of [NextGenException] and of
    neither validation error. *)
Lemma taxonomy_not_validation e :
  isinstance e NextGenException = true →
  isinstance_any e [ValidationError; RequestValidationError] = false.
Proof. unfold isinstance_any, isinstance. by destruct (exc_class e). Qed.

(** The errors of [json.dumps] are instances of [Exception]. *)
Lemma dumps_error_is_Exception dumps_str bad :
  isinstance (dumps_error dumps_str bad) PyException = true.
Proof. done. Qed.

Context {W A : Type}.
Implicit Types (body : M W A) (clauses : list (clause W A)).

Lemma try_except_return body clauses w a w' :
  body w = (Return a, w') → try_except body clauses w = (Return a, w').
Proof. unfold try_except. by intros ->. Qed.

Lemma try_except_caught body clauses w e w' cl :
  body w = (Raise e, w') →
  select_clause e clauses = Some cl →
  try_except body clauses w = cl.2 e w'.
Proof. unfold try_except. by intros -> ->. Qed.

Lemma try_except_propagates body clauses w e w' :
  body w = (Raise e, w') →
  select_clause e clauses = None →
  try_except body clauses w = (Raise e, w').
Proof. unfold try_except. by intros -> ->. Qed.

(** A clause for [Exception] catches the instances of [Exception], and lets
    pass what is not one. *)
Lemma select_catch_all e (on_error : exn → M W A) :
  select_clause e [([PyException], on_error)]
  = if isinstance e PyException then Some ([PyException], on_error) else None.
Proof.
  unfold select_clause, isinstance_any. simpl.
  by destruct (isinstance e PyException).
Qed.

End PyFacts.

(** ** The routing layer, with a logger whose calls return *)
Section RouterFacts.

Context {W : Type}.
Variable logger : level → string → W → W.
Variable process_task : TaskRequest → M W pyobj.
Variable fault_str : ExcClass → Z → string → string.
Variable dumps_str : pyobj → string.

Local Abbreviation generate_5ws :=
  (Router.generate_5ws (emit logger) process_task fault_str dumps_str).
Local Abbreviation generate_body :=
  (Router.generate_body (emit logger) process_task dumps_str).
Local Abbreviation generate_clauses := (Router.generate_clauses (emit logger) fault_str).
Local Abbreviation new_NextGenException := (Router.new_NextGenException fault_str).
Local Abbreviation new_InvalidPayloadException :=
  (Router.new_InvalidPayloadException fault_str).
Local Abbreviation index := (Router.index (emit logger)).
Local Abbreviation get_capabilities :=
  (Router.get_capabilities (emit logger) fault_str dumps_str).
Local Abbreviation heartbeat := (Router.heartbeat (emit logger) fault_str dumps_str).

(** The state in which [generate_5ws] reaches the provider call. *)
Local Notation "'received' request w" :=
  (logger INFO ("Received task: " +:+ task_name request) w)
  (at level 10, request at level 9, w at level 9, only parsing).

Ltac run_generate Hcall :=
  unfold Router.generate_5ws, try_except, Router.generate_body, bind, emit,
    new_JSONResponse;
  simpl; rewrite Hcall; simpl.

Ltac by_class e :=
  unfold select_clause, isinstance_any, isinstance in *;
  destruct e as [[] msg status detail]; simpl in *.


(** C2.  When the provider call raises an instance of [NetworkException],
    [LLMProviderException], [TimeoutException], [InvalidPayloadException] or
    [NextGenException], the [/generate] handler raises that very exception
    value, and with it its status code and its detail. *)
Theorem generate_reraises_typed request w e w' :
  process_task request (received request w) = (Raise e, w') →
  isinstance_any e [NetworkException; LLMProviderException; TimeoutException;
                    InvalidPayloadException; NextGenException] = true →
  ∃ raised, (generate_5ws request w).1 = Raise raised
            ∧ raised = e
            ∧ exc_status_code raised = exc_status_code e
            ∧ exc_detail raised = exc_detail e.
Proof.
  intros Hcall Hkind. exists e. split; [|done].
  run_generate Hcall.
  by_class e; by try discriminate.
Qed.

(** C4, as amended.  The dispatch of [/generate] on a fault of the provider
    call.  A validation error selects the first clause, ahead of every
    provider kind, and surfaces as [InvalidPayloadException].  For an
    instance of [Exception], the class by which the selected clause matches
    is the most specific of the enumerated kinds the fault is an instance
    of, and what the handler raises is an instance of [NextGenException].  A
    fault that is not an instance of [Exception] is matched by no clause and
    leaves the handler as it came. *)
Theorem generate_dispatch_policy request w e w' :
  process_task request (received request w) = (Raise e, w') →
  (isinstance_any e [ValidationError; RequestValidationError] = true →
     select_clause e generate_clauses = head generate_clauses
     ∧ (generate_5ws request w).1 = Raise (new_InvalidPayloadException (exc_str e)))
  ∧ (isinstance e PyException = true →
     (∃ cl kind,
        select_clause e generate_clauses = Some cl
        ∧ find (isinstance e) cl.1 = Some kind
        ∧ Forall (λ other, isinstance e other = true → issubclass kind other = true)
            [ValidationError; RequestValidationError; InvalidPayloadException;
             NetworkException; LLMProviderException; TimeoutException;
             NextGenException; PyException])
     ∧ ∃ raised, (generate_5ws request w).1 = Raise raised
                 ∧ isinstance raised NextGenException = true)
  ∧ (isinstance e PyException = false →
     select_clause e generate_clauses = None
     ∧ generate_5ws request w = (Raise e, w')).
Proof.
  intros Hcall. split; [|split].
  - intros Hvalidation. split.
    + by_class e; by try discriminate.
    + run_generate Hcall. by_class e; by try discriminate.
  - intros Hexception. split.
    + by_class e; try discriminate;
        (eexists _, _; split; [reflexivity|]; split; [reflexivity|]);
        repeat (apply List.Forall_cons; [by simpl|]); apply List.Forall_nil.
    + run_generate Hcall. by_class e; try discriminate; by eexists.
  - intros Hbase. split.
    + by_class e; by try discriminate.
    + run_generate Hcall. by_class e; by try discriminate.
Qed.

(** C5, as amended.  An exception raised in the body of [/generate], by the
    provider call or by the construction of the response, that is an
    instance of none of the classes named by the earlier clauses: if it is
    an instance of [Exception] it is wrapped, the handler raising a
    [NextGenException] whose detail is ["Unhandled error in /generate: "]
    followed by [str()] of the original exception; if it is not, it leaves
    the handler as it came, with no record of it. *)
Theorem generate_wraps_unexpected request w e w' :
  generate_body request w = (Raise e, w') →
  isinstance_any e [ValidationError; RequestValidationError;
                    InvalidPayloadException; NetworkException;
                    LLMProviderException; TimeoutException;
                    NextGenException] = false →
  (isinstance e PyException = true →
     ∃ raised, (generate_5ws request w).1 = Raise raised
               ∧ exc_class raised = NextGenException
               ∧ exc_detail raised = "Unhandled error in /generate: " +:+ exc_str e)
  ∧ (isinstance e PyException = false →
     generate_5ws request w = (Raise e, w')).
Proof.
  intros Hbody Hkind.
  unfold Router.generate_5ws, try_except. rewrite Hbody.
  split; intros Hexception.
  - exists (new_NextGenException ("Unhandled error in /generate: " +:+ exc_str e)).
    split; [|done].
    by_class e; by try discriminate.
  - by_class e; by try discriminate.
Qed.

(** C6.  [GET /], [GET /capabilities] and [POST /heartbeat] answer, in every
    state, with status 200 and their literal bodies. *)
Theorem fixed_routes_respond_200 w :
  (respond index w).1
    = Return (mkJSONResponse 200 (JObj [("message", JStr "NextGen API is live!")]))
  ∧ (respond get_capabilities w).1
    = Return (mkJSONResponse 200
        (JObj [("models", JArr [JStr "03-mini-openai"; JStr "gpt-4"; JStr "llama-3"])]))
  ∧ (respond heartbeat w).1
    = Return (mkJSONResponse 200
        (JObj [("info", JStr "heartbeat OK"); ("role", JStr "backend")])).
Proof. done. Qed.

(** C8, as amended.  What a handler does to the state outside the request is
    its logger calls and nothing else, the provider call of [/generate]
    apart: [/], [/capabilities] and [/heartbeat] leave the state that one
    INFO record makes of the initial one; [/generate] leaves the state in
    which the provider call ended, itself made in the state after one INFO
    record, or one further record on top of it. *)
Theorem handlers_touch_only_logger_and_provider request w :
  (index w).2 = logger INFO "NextGen API is live!" w
  ∧ (get_capabilities w).2 = logger INFO "Fetching capabilities" w
  ∧ (heartbeat w).2 = logger INFO "Heartbeat check" w
  ∧ ((generate_5ws request w).2 = (process_task request (received request w)).2
     ∨ ∃ lvl msg,
         (generate_5ws request w).2
         = logger lvl msg (process_task request (received request w)).2).
Proof.
  repeat split.
  unfold Router.generate_5ws, try_except, Router.generate_body, bind, emit,
    new_JSONResponse.
  simpl. destruct (process_task request _) as [[result|e] w'] eqn:Hcall; simpl.
  - destruct (unencodable result) as [bad|]; simpl; [|by left].
    right. by eexists _, _.
  - by_class e; first [ by left | right; by eexists _, _ ].
Qed.

End RouterFacts.

(** C9.  The three fixed routes depend neither on an input nor on the state:
    any two invocations of one of them, in whatever states and with whatever
    collaborators, give the same result, and [/capabilities] lists exactly
    ["03-mini-openai"], ["gpt-4"] and ["llama-3"]. *)
Theorem fixed_routes_deterministic {W1 W2 : Type}
    (logger1 : level → string → W1 → W1) (logger2 : level → string → W2 → W2)
    (fault_str1 fault_str2 : ExcClass → Z → string → string)
    (dumps_str1 dumps_str2 : pyobj → string) (w1 : W1) (w2 : W2) :
  (Router.index (emit logger1) w1).1 = (Router.index (emit logger2) w2).1
  ∧ (Router.get_capabilities (emit logger1) fault_str1 dumps_str1 w1).1
    = (Router.get_capabilities (emit logger2) fault_str2 dumps_str2 w2).1
  ∧ (Router.heartbeat (emit logger1) fault_str1 dumps_str1 w1).1
    = (Router.heartbeat (emit logger2) fault_str2 dumps_str2 w2).1
  ∧ (Router.get_capabilities (emit logger1) fault_str1 dumps_str1 w1).1
    = Return (Response (mkJSONResponse ErrorCode.SUCCESS
        (JObj [("models",
                JArr [JStr "03-mini-openai"; JStr "gpt-4"; JStr "llama-3"])]))).
Proof. done. Qed.

(** ** The routing layer, with a logger whose calls may raise *)
Section FallbackFacts.

Context {W : Type}.
Variable logger : level → string → M W unit.
Variable process_task : TaskRequest → M W pyobj.
Variable fault_str : ExcClass → Z → string → string.
Variable dumps_str : pyobj → string.

Local Abbreviation capabilities_body := (Router.capabilities_body logger dumps_str).
Local Abbreviation get_capabilities := (Router.get_capabilities logger fault_str dumps_str).
Local Abbreviation heartbeat_body := (Router.heartbeat_body logger dumps_str).
Local Abbreviation heartbeat := (Router.heartbeat logger fault_str dumps_str).
Local Abbreviation generate_body := (Router.generate_body logger process_task dumps_str).
Local Abbreviation generate_5ws :=
  (Router.generate_5ws logger process_task fault_str dumps_str).

Ltac run_fallback Hbody Hexception Hlogged :=
  unfold try_except; rewrite Hbody, select_catch_all, Hexception;
  cbn [snd];
  unfold Router.capabilities_except, Router.heartbeat_except, bind;
  rewrite Hlogged.

(** C10.  When the body of [/capabilities] or of [/heartbeat] raises an
    instance of [Exception], or the body of [/generate] one that no earlier
    clause names, and the ERROR call of the clause that catches it returns,
    the handler raises a [NextGenException] whose detail is the route's
    prefix followed by [str()] of the exception caught. *)
Theorem fallback_detail_embeds_message request :
  (∀ e w w1 w2,
     capabilities_body w = (Raise e, w1) →
     isinstance e PyException = true →
     logger ERROR ("Error in /capabilities: " +:+ exc_str e) w1 = (Return tt, w2) →
     ∃ raised, get_capabilities w = (Raise raised, w2)
               ∧ exc_class raised = NextGenException
               ∧ exc_detail raised = "Error in /capabilities: " +:+ exc_str e)
  ∧ (∀ e w w1 w2,
       heartbeat_body w = (Raise e, w1) →
       isinstance e PyException = true →
       logger ERROR ("Error in /heartbeat: " +:+ exc_str e) w1 = (Return tt, w2) →
       ∃ raised, heartbeat w = (Raise raised, w2)
                 ∧ exc_class raised = NextGenException
                 ∧ exc_detail raised = "Error in /heartbeat: " +:+ exc_str e)
  ∧ (∀ e w w1 w2,
       generate_body request w = (Raise e, w1) →
       isinstance e PyException = true →
       isinstance_any e [ValidationError; RequestValidationError;
                         InvalidPayloadException; NetworkException;
                         LLMProviderException; TimeoutException;
                         NextGenException] = false →
       logger ERROR ("Unhandled error in /generate: " +:+ exc_str e) w1
       = (Return tt, w2) →
       ∃ raised, generate_5ws request w = (Raise raised, w2)
                 ∧ exc_class raised = NextGenException
                 ∧ exc_detail raised
                   = "Unhandled error in /generate: " +:+ exc_str e).
Proof.
  split; [|split].
  - intros e w w1 w2 Hbody Hexception Hlogged.
    unfold Router.get_capabilities. run_fallback Hbody Hexception Hlogged.
    by eexists.
  - intros e w w1 w2 Hbody Hexception Hlogged.
    unfold Router.heartbeat. run_fallback Hbody Hexception Hlogged.
    by eexists.
  - intros e w w1 w2 Hbody Hexception Hkind Hlogged.
    unfold Router.generate_5ws, try_except. rewrite Hbody.
    assert (select_clause e (Router.generate_clauses logger fault_str)
            = Some ([PyException], Router.on_unhandled logger fault_str)) as ->.
    { unfold select_clause, isinstance_any, isinstance in *.
      destruct e as [[] msg status detail]; simpl in *; by try discriminate. }
    cbn [snd]. unfold Router.on_unhandled, bind. rewrite Hlogged. by eexists.
Qed.

End FallbackFacts.

(** ** The application set-up *)
Section MainFacts.

Context {W Request : Type}.
Variable logger : level → string → W → W.
Variable format_exc : W → string.

(** C3.  Whatever exception reaches the global exception handler, of
    whatever class and message, the handler returns status 500 with the body
    [{"detail": "Internal server error"}]. *)
Theorem global_handler_opaque_500 (request : Request) exc w :
  (Main.global_exception_handler logger format_exc request exc w).1
  = Return (mkJSONResponse 500 (JObj [("detail", JStr "Internal server error")])).
Proof. done. Qed.

End MainFacts.

(** *** Splitting the setting at its commas *)
Section Split.

Variable sep : ascii.

Local Abbreviation split := (Main.split sep).
Local Abbreviation join := (Main.join (String sep EmptyString)).
Local Abbreviation free := (λ piece, Main.contains sep piece = false).

Lemma split_nonempty s : split s ≠ [].
Proof.
  destruct s as [|c rest]; simpl; [done|].
  destruct (Ascii.eqb c sep); [done|]. by destruct (split rest).
Qed.

Lemma join_cons_char c piece pieces :
  join (String c piece :: pieces)
  = String c (join (piece :: pieces)).
Proof. by destruct pieces. Qed.

(** Joining the pieces with the separator gives the string back. *)
Lemma join_split s : join (split s) = s.
Proof.
  induction s as [|c rest IH]; simpl; [done|].
  destruct (Ascii.eqb c sep) eqn:Hc.
  - apply Ascii.eqb_eq in Hc as ->.
    pose proof (split_nonempty rest) as Hne.
    destruct (split rest) as [|piece pieces]; [done|].
    simpl in *. by rewrite IH.
  - pose proof (split_nonempty rest) as Hne.
    destruct (split rest) as [|piece pieces]; [done|].
    by rewrite join_cons_char, IH.
Qed.

(** No piece holds the separator. *)
Lemma split_pieces_free s : Forall free (split s).
Proof.
  induction s as [|c rest IH]; simpl.
  - by repeat constructor.
  - destruct (Ascii.eqb c sep) eqn:Hc.
    + by constructor.
    + destruct (split rest) as [|piece pieces]; simpl.
      * repeat constructor. simpl. by rewrite Hc.
      * inversion IH as [|? ? Hpiece Hpieces]; subst.
        constructor; [|done]. simpl. by rewrite Hc.
Qed.

End Split.

(** C7.  The origins handed to the CORS layer are [ALLOWED_ORIGINS], which
    is read from the one environment variable of that name: the pieces of
    its value between the commas (none holds a comma, and joined by commas
    they give the value back), or ["*"] alone when the variable is not set;
    setting or unsetting any other variable changes nothing, and the list is
    fixed in the application that the start-up builds. *)
Theorem allowed_origins_from_one_setting (environ : gmap string string) :
  Main.allow_origins (Main.cors (Main.app environ)) = Main.ALLOWED_ORIGINS environ
  ∧ Main.join "," (Main.ALLOWED_ORIGINS environ)
    = default "*" (environ !! "ALLOWED_ORIGINS")
  ∧ Forall (λ origin, Main.contains Main.comma origin = false) (Main.ALLOWED_ORIGINS environ)
  ∧ Main.ALLOWED_ORIGINS (delete "ALLOWED_ORIGINS" environ) = ["*"]
  ∧ (∀ name value, name ≠ "ALLOWED_ORIGINS" →
       Main.ALLOWED_ORIGINS (<[name:=value]> environ) = Main.ALLOWED_ORIGINS environ
       ∧ Main.ALLOWED_ORIGINS (delete name environ) = Main.ALLOWED_ORIGINS environ).
Proof.
  unfold Main.ALLOWED_ORIGINS, Main.getenv. repeat split.
  - apply (join_split Main.comma).
  - apply split_pieces_free.
  - by rewrite lookup_delete_eq.
  - by rewrite lookup_insert_ne.
  - by rewrite lookup_delete_ne.
Qed.

(** ** The statements at concrete requests *)
Section Scenarios.

Import Sample.

Local Abbreviation generate provider :=
  (Router.generate_5ws (emit recording_logger) provider detail_str dumps_text
     summarize).



(** A provider that cannot be reached: its 503 comes out as it went in. *)
Lemma generate_reraises_typed_witness :
  isinstance unreachable NetworkException = true
  ∧ ∃ raised, (generate (failing unreachable) quiet).1 = Raise raised
              ∧ raised = unreachable
              ∧ exc_status_code raised = 503
              ∧ exc_detail raised = "provider unreachable".
Proof.
  split; [reflexivity|].
  eapply (generate_reraises_typed recording_logger (failing unreachable) detail_str
            dumps_text summarize quiet unreachable); reflexivity.
Defined.

(** A validation error raised inside the provider call. *)
Lemma generate_dispatch_policy_witness :
  isinstance missing_field ValidationError = true
  ∧ (generate (failing missing_field) quiet).1
    = Raise (Exn InvalidPayloadException "1 validation error for TaskRequest" 400
                 "1 validation error for TaskRequest")
  ∧ ∃ raised, (generate (failing missing_field) quiet).1 = Raise raised
              ∧ isinstance raised NextGenException = true.
Proof.
  pose proof (generate_dispatch_policy recording_logger (failing missing_field)
                detail_str dumps_text summarize quiet missing_field _ eq_refl)
    as (Hfirst & Hexception & _).
  split; [reflexivity|]. split.
  - exact (proj2 (Hfirst eq_refl)).
  - exact (proj2 (Hexception eq_refl)).
Defined.

(** C4, as stated, fails: the cancellation of the awaiting task matches no
    clause and leaves the handler unclassified, an instance of no kind of
    the taxonomy, and without a record. *)
Lemma cancellation_escapes_unclassified :
  select_clause cancelled
    (Router.generate_clauses (emit recording_logger) detail_str) = None
  ∧ generate (failing cancelled) quiet
    = (Raise cancelled, mkWorld [(INFO, "Received task: summarize")] [summarize])
  ∧ isinstance cancelled NextGenException = false.
Proof. repeat split. Qed.

(** A [KeyError] raised inside the provider call. *)
Lemma generate_wraps_unexpected_witness :
  isinstance key_error PyException = true
  ∧ isinstance key_error NextGenException = false
  ∧ ∃ raised, (generate (failing key_error) quiet).1 = Raise raised
              ∧ exc_class raised = NextGenException
              ∧ exc_detail raised = "Unhandled error in /generate: 'choices'".
Proof.
  split; [reflexivity|]. split; [reflexivity|].
  eapply (generate_wraps_unexpected recording_logger (failing key_error) detail_str
            dumps_text summarize quiet key_error); reflexivity.
Defined.

(** C5, as stated, fails: a [KeyboardInterrupt] during the provider call is
    none of the enumerated kinds, and the handler raises it as it is, not a
    [NextGenException] around it. *)
Lemma interrupt_escapes_unwrapped :
  isinstance_any interrupted
    [ValidationError; RequestValidationError; InvalidPayloadException;
     NetworkException; LLMProviderException; TimeoutException;
     NextGenException] = false
  ∧ (generate (failing interrupted) quiet).1 = Raise interrupted
  ∧ exc_class interrupted ≠ NextGenException.
Proof. repeat split. discriminate. Qed.

(** A logger whose INFO calls fail with a full disk. *)
Lemma fallback_detail_embeds_message_witness :
  (∃ raised,
     Router.get_capabilities broken_info_logger detail_str dumps_text quiet
     = (Raise raised,
        mkWorld [(ERROR, "Error in /capabilities: [Errno 28] No space left on device")] [])
     ∧ exc_class raised = NextGenException
     ∧ exc_detail raised
       = "Error in /capabilities: [Errno 28] No space left on device")
  ∧ (∃ raised,
       Router.heartbeat broken_info_logger detail_str dumps_text quiet
       = (Raise raised,
          mkWorld [(ERROR, "Error in /heartbeat: [Errno 28] No space left on device")] [])
       ∧ exc_class raised = NextGenException
       ∧ exc_detail raised
         = "Error in /heartbeat: [Errno 28] No space left on device")
  ∧ (∃ raised,
       Router.generate_5ws broken_info_logger (answering summary) detail_str
         dumps_text summarize quiet
       = (Raise raised,
          mkWorld [(ERROR, "Unhandled error in /generate: [Errno 28] No space left on device")] [])
       ∧ exc_class raised = NextGenException
       ∧ exc_detail raised
         = "Unhandled error in /generate: [Errno 28] No space left on device").
Proof.
  pose proof (fallback_detail_embeds_message broken_info_logger (answering summary)
                detail_str dumps_text summarize)
    as (Hcapabilities & Hheartbeat & Hgenerate).
  split; [|split].
  - exact (Hcapabilities disk_full quiet quiet _ eq_refl eq_refl eq_refl).
  - exact (Hheartbeat disk_full quiet quiet _ eq_refl eq_refl eq_refl).
  - exact (Hgenerate disk_full quiet quiet _ eq_refl eq_refl eq_refl eq_refl).
Defined.

(** C8, as stated, fails: [/] leaves a record in the logger's sink, and
    [/generate] leaves one besides the provider call. *)
Lemma handlers_leave_log_records :
  ¬ stateless (Router.index (emit recording_logger))
  ∧ ¬ only_calls (answering summary summarize) (generate (answering summary)).
Proof.
  split; intros Hclaim; specialize (Hclaim quiet); discriminate Hclaim.
Qed.

Example index_records :
  (Router.index (emit recording_logger) quiet).2
  = mkWorld [(INFO, "NextGen API is live!")] [].
Proof. reflexivity. Qed.

Example generate_failure_records :
  (generate (failing unreachable) quiet).2
  = mkWorld [(INFO, "Received task: summarize");
             (ERROR, "Network error: provider unreachable")] [summarize].
Proof. reflexivity. Qed.

Example not_found_is_reraised :
  let e := Exn NotFoundException "no such model" 404 "no such model" in
  (generate (failing e) quiet).1 = Raise e.
Proof. reflexivity. Qed.

Example two_origins :
  Main.ALLOWED_ORIGINS {[ "ALLOWED_ORIGINS" := "https://a.example,https://b.example" ]}
  = ["https://a.example"; "https://b.example"].
Proof.
  unfold Main.ALLOWED_ORIGINS, Main.getenv. by rewrite lookup_singleton_eq.
Qed.

Example empty_setting : Main.ALLOWED_ORIGINS {[ "ALLOWED_ORIGINS" := "" ]} = [""].
Proof.
  unfold Main.ALLOWED_ORIGINS, Main.getenv. by rewrite lookup_singleton_eq.
Qed.

Example unset_setting : Main.ALLOWED_ORIGINS ∅ = ["*"].
Proof. reflexivity. Qed.

End Scenarios.

(** ** Further properties of [generate_5ws] *)
Section GenerateFacts.

Context {W : Type}.
Variable logger : level → string → W → W.
Variable fault_str : ExcClass → Z → string → string.
Variable dumps_str : pyobj → string.

Local Abbreviation generate_5ws provider :=
  (Router.generate_5ws (emit logger) provider fault_str dumps_str).
Local Notation "'received' request w" :=
  (logger INFO ("Received task: " +:+ task_name request) w)
  (at level 10, request at level 9, w at level 9, only parsing).

Ltac run_generate :=
  unfold Router.generate_5ws, try_except, Router.generate_body, bind, emit,
    new_JSONResponse;
  simpl.

Ltac by_class e :=
  unfold select_clause, isinstance_any, isinstance in *;
  destruct e as [[] msg status detail]; simpl in *.

(** The handler returns only when the provider call returned: what it returns
    is then the response of status 200 around the provider's result, and the
    state is the one the provider call left, with no record added.  No fault
    of the provider is turned into a response. *)
Theorem generate_returns_only_on_success provider request w r :
  (generate_5ws provider request w).1 = Return r →
  ∃ result,
    (provider request (received request w)).1 = Return result
    ∧ r = Response (mkJSONResponse 200 result)
    ∧ (generate_5ws provider request w).2 = (provider request (received request w)).2.
Proof.
  run_generate.
  destruct (provider request _) as [[result|e] w'] eqn:Hcall; simpl.
  - destruct (unencodable result) as [bad|]; simpl; [discriminate|].
    intros [= <-]. by exists result.
  - by_class e; discriminate.
Qed.

(** The handler consults the provider at one point only, the request in the
    state after the INFO record: two providers that agree there give the same
    outcome and the same state, whatever they would do on another call. *)
Theorem generate_calls_provider_once provider1 provider2 request w :
  provider1 request (received request w) = provider2 request (received request w) →
  generate_5ws provider1 request w = generate_5ws provider2 request w.
Proof. run_generate. by intros ->. Qed.

(** What the handler raises passes through the handler unchanged: if a
    provider call ends in an exception that [generate_5ws] has raised, the
    handler raises that very exception again. *)
Theorem generate_raised_is_stable provider1 request1 w1 e w1' raised
    provider2 request2 w2 w2' :
  provider1 request1 (received request1 w1) = (Raise e, w1') →
  (generate_5ws provider1 request1 w1).1 = Raise raised →
  provider2 request2 (received request2 w2) = (Raise raised, w2') →
  (generate_5ws provider2 request2 w2).1 = Raise raised.
Proof.
  intros Hcall1 Hraised Hcall2. revert Hraised.
  run_generate. rewrite Hcall1, Hcall2. simpl.
  by_class e; intros [= <-]; reflexivity.
Qed.

(** A fault of the provider call that is an instance of [Exception] leaves
    exactly one record after the call: a WARNING for a validation error or
    an invalid payload and an ERROR for everything else, whose text ends in
    the detail of a taxonomy fault and in [str()] of any other exception.  A
    fault that is not an instance of [Exception] leaves no record. *)
Theorem generate_logs_fault_once provider request w e w' :
  provider request (received request w) = (Raise e, w') →
  ∃ prefix,
    (generate_5ws provider request w).2
    = if isinstance e PyException
      then logger (if isinstance_any e [ValidationError; RequestValidationError;
                                        InvalidPayloadException]
                   then WARNING else ERROR)
                  (prefix +:+ (if isinstance e NextGenException
                               then exc_detail e else exc_str e))
                  w'
      else w'.
Proof.
  intros Hcall. run_generate. rewrite Hcall. simpl.
  by_class e;
    first [ by exists "Validation error: "
          | by exists "Invalid payload: "
          | by exists "Network error: "
          | by exists "LLM provider error: "
          | by exists "Timeout error: "
          | by exists "NextGen error: "
          | by exists "Unhandled error in /generate: " ].
Qed.

End GenerateFacts.

(** ** Further properties of the origins setting *)
Section SplitMore.

Variable sep : ascii.

Local Abbreviation split := (Main.split sep).
Local Abbreviation join := (Main.join (String sep EmptyString)).
Local Abbreviation free := (λ piece, Main.contains sep piece = false).

(** A separator between two strings separates their pieces. *)
Lemma split_app_sep a b :
  split (a +:+ String sep b) = (split a ++ split b)%list.
Proof.
  induction a as [|c a IH]; simpl.
  - by rewrite Ascii.eqb_refl.
  - rewrite IH. destruct (Ascii.eqb c sep); [done|].
    pose proof (split_nonempty sep a) as Hne.
    by destruct (Main.split sep a).
Qed.

(** A string without the separator is its own single piece. *)
Lemma split_free s : free s → split s = [s].
Proof.
  induction s as [|c s IH]; simpl; [done|].
  destruct (Ascii.eqb c sep); simpl; [done|].
  intros Hfree. by rewrite IH.
Qed.

Lemma join_cons_cons piece piece' pieces :
  join (piece :: piece' :: pieces) = piece +:+ String sep (join (piece' :: pieces)).
Proof. done. Qed.

(** Splitting what the separator joins gives the pieces back. *)
Lemma split_join pieces :
  pieces ≠ [] → Forall free pieces → split (join pieces) = pieces.
Proof.
  induction pieces as [|piece [|piece' pieces] IH]; intros Hne Hfree; [done|..].
  - inversion Hfree; subst. by apply split_free.
  - inversion Hfree as [|? ? Hpiece Hrest]; subst.
    rewrite join_cons_cons, split_app_sep, IH, split_free; done.
Qed.

Lemma length_split s : length (split s) = S (Main.occurrences sep s).
Proof.
  induction s as [|c s IH]; simpl; [done|].
  destruct (Ascii.eqb c sep); simpl; [by rewrite IH|].
  pose proof (split_nonempty sep s) as Hne.
  destruct (Main.split sep s); [done|]. simpl in *. lia.
Qed.

End SplitMore.

Section OriginsFacts.

Implicit Types (environ : gmap string string) (origins : list string).

Local Abbreviation setting environ := (Main.getenv environ "ALLOWED_ORIGINS" "*").

(** The list of origins is never empty: it has one entry more than the
    setting (or the default ["*"]) has commas. *)
Theorem allowed_origins_count environ :
  length (Main.ALLOWED_ORIGINS environ)
  = S (Main.occurrences Main.comma (setting environ)).
Proof. apply length_split. Qed.

(** The origins are the wildcard alone exactly when the variable is not set
    or is set to ["*"] itself. *)
Theorem allowed_origins_wildcard_iff environ :
  Main.ALLOWED_ORIGINS environ = ["*"]
  ↔ environ !! "ALLOWED_ORIGINS" = None ∨ environ !! "ALLOWED_ORIGINS" = Some "*".
Proof.
  unfold Main.ALLOWED_ORIGINS, Main.getenv. split.
  - destruct (environ !! "ALLOWED_ORIGINS") as [value|]; simpl; [|by left].
    intros Hsplit. right. f_equal.
    by rewrite <- (join_split Main.comma value), Hsplit.
  - by intros [-> | ->].
Qed.

(** Setting the variable to the comma-join of a non-empty list of
    comma-free origins makes these, in this order, the allowed origins. *)
Theorem allowed_origins_of_joined environ origins :
  origins ≠ [] →
  Forall (λ origin, Main.contains Main.comma origin = false) origins →
  Main.ALLOWED_ORIGINS (<["ALLOWED_ORIGINS" := Main.join "," origins]> environ)
  = origins.
Proof.
  intros Hne Hfree. unfold Main.ALLOWED_ORIGINS, Main.getenv.
  rewrite lookup_insert_eq. simpl. by apply (split_join Main.comma).
Qed.

(** Empty pieces are kept: a comma at the end of the value adds an empty
    origin after the origins of the value without it. *)
Theorem allowed_origins_trailing_comma environ value :
  Main.ALLOWED_ORIGINS (<["ALLOWED_ORIGINS" := value +:+ ","]> environ)
  = (Main.ALLOWED_ORIGINS (<["ALLOWED_ORIGINS" := value]> environ) ++ [""])%list.
Proof.
  unfold Main.ALLOWED_ORIGINS, Main.getenv.
  rewrite !lookup_insert_eq. simpl. apply (split_app_sep Main.comma).
Qed.

End OriginsFacts.

(** ** The further properties at concrete requests and settings *)
Section MoreScenarios.

Import Sample.

Local Abbreviation generate provider :=
  (Router.generate_5ws (emit recording_logger) provider detail_str dumps_text
     summarize).

Lemma generate_returns_only_on_success_witness :
  (generate (answering summary) quiet).1
  = Return (Response (mkJSONResponse 200 summary))
  ∧ ∃ result,
      (answering summary summarize
         (recording_logger INFO "Received task: summarize" quiet)).1
      = Return result
      ∧ Response (mkJSONResponse 200 summary) = Response (mkJSONResponse 200 result)
      ∧ (generate (answering summary) quiet).2
        = mkWorld [(INFO, "Received task: summarize")] [summarize].
Proof.
  split; [reflexivity|].
  apply (generate_returns_only_on_success recording_logger detail_str dumps_text
           (answering summary) summarize quiet).
  reflexivity.
Defined.

(** A provider that would answer on a second call is not called again. *)
Lemma generate_calls_provider_once_witness :
  failing unreachable summarize (recording_logger INFO "Received task: summarize" quiet)
  = failing_once unreachable summary summarize
      (recording_logger INFO "Received task: summarize" quiet)
  ∧ generate (failing unreachable) quiet
    = generate (failing_once unreachable summary) quiet.
Proof.
  split; [reflexivity|].
  apply (generate_calls_provider_once recording_logger detail_str dumps_text
           (failing unreachable) (failing_once unreachable summary) summarize quiet).
  reflexivity.
Defined.

(** The [InvalidPayloadException] made of a validation error, raised by a
    provider in its turn. *)
Lemma generate_raised_is_stable_witness :
  (generate (failing missing_field) quiet).1 = Raise invalid_payload
  ∧ (generate (failing invalid_payload) quiet).1 = Raise invalid_payload.
Proof.
  split; [reflexivity|].
  eapply (generate_raised_is_stable recording_logger detail_str dumps_text
            (failing missing_field) summarize quiet missing_field _ _
            (failing _) summarize quiet);
    reflexivity.
Defined.

Lemma generate_logs_fault_once_witness :
  (failing unreachable summarize
     (recording_logger INFO "Received task: summarize" quiet)).1
  = Raise unreachable
  ∧ ∃ prefix,
      (generate (failing unreachable) quiet).2
      = mkWorld [(INFO, "Received task: summarize");
                 (ERROR, prefix +:+ "provider unreachable")] [summarize].
Proof.
  split; [reflexivity|].
  exact (generate_logs_fault_once recording_logger detail_str dumps_text
           (failing unreachable) summarize quiet unreachable
           (mkWorld [(INFO, "Received task: summarize")] [summarize]) eq_refl).
Defined.

Lemma allowed_origins_of_joined_witness :
  Main.ALLOWED_ORIGINS
    (<["ALLOWED_ORIGINS" := "https://a.example,https://b.example"]> ∅)
  = ["https://a.example"; "https://b.example"].
Proof.
  apply (allowed_origins_of_joined ∅ ["https://a.example"; "https://b.example"]).
  - discriminate.
  - repeat constructor.
Defined.

End MoreScenarios.
